(* ===================================================================== *)
(* Work-engagement survey app (UWES-9): the scoring core of src/app.py   *)
(* ===================================================================== *)
(* Shallow embedding of the scoring functions of src/app.py:
     - get_score_level   (banding of a score into six labelled levels)
     - calculate_scores  (three subscale means and the overall mean)
     - get_interpretation (narrative text for the overall level)
   and of the two places of main() that feed them: the answer form
   (one select_slider per question) and the gate of the result tab.

   Data as the code has it:
     - the responses dict {question id: answer} is a gmap Z Z;
     - Python's int arithmetic is Z;
     - Python's true division `/` of two ints is read as exact division
       in Q (the model abstracts binary floating point away: every
       constant the code compares against, 1.0 2.5 3.5 4.5 5.5, is exact);
       calculate_scores_f is the same function with `/` as Python runs
       it, one binary64 division rounded to nearest (primitive floats);
     - `responses[i]` on a missing key raises KeyError, and a division by
       `len(...) = 0` raises ZeroDivisionError: both are the constructors
       of py_error, carried by a small error monad;
     - level labels and colours are the source's strings. *)

From Stdlib Require Import PrimFloat.
From stdpp Require Import gmap strings pretty.
From Stdlib Require Import QArith Qfield Lqa.

Open Scope Z_scope.

(* --------------------------------------------------------------------- *)
(* Python exceptions and a small error monad                            *)
(* --------------------------------------------------------------------- *)

Inductive py_error :=
| KeyError (k : Z)
| ZeroDivisionError.

Inductive result (A : Type) :=
| Ok (a : A)
| Raise (e : py_error).
Arguments Ok {A} a.
Arguments Raise {A} e.

Definition rbind {A B} (c : result A) (k : A -> result B) : result B :=
  match c with
  | Ok a => k a
  | Raise e => Raise e
  end.

Notation "x <- c ;; k" := (rbind c (fun x => k))
  (at level 100, c at next level, right associativity).

(** `responses[i]`: dict subscription, KeyError when the key is absent. *)
Definition get_item (responses : gmap Z Z) (i : Z) : result Z :=
  match responses !! i with
  | Some v => Ok v
  | None => Raise (KeyError i)
  end.

(** `sum(responses[i] for i in items)`: the generator is consumed left to
    right, so the first missing key of `items` is the one reported. *)
Fixpoint sum_items (responses : gmap Z Z) (items : list Z) : result Z :=
  match items with
  | [] => Ok 0
  | i :: rest =>
      v <- get_item responses i;;
      s <- sum_items responses rest;;
      Ok (v + s)
  end.

(** `sum(responses.values())`: integer addition, so the dict's iteration
    order does not matter. *)
Definition sum_values (responses : gmap Z Z) : Z :=
  map_fold (fun _ v acc => acc + v) 0 responses.

(** Python's `a / n` for ints a and n = len(...) >= 0. *)
Definition py_div (a : Z) (n : nat) : result Q :=
  match n with
  | O => Raise ZeroDivisionError
  | _ => Ok (inject_Z a / inject_Z (Z.of_nat n))%Q
  end.

(* --------------------------------------------------------------------- *)
(* get_score_level                                                       *)
(* --------------------------------------------------------------------- *)

(** Python's `score < c` on the model's rationals. *)
Definition Qltb (a b : Q) : bool := negb (Qle_bool b a).

Open Scope string_scope.

Definition level_very_low : string := "非常に低い".
Definition level_low : string := "低い".
Definition level_somewhat_low : string := "やや低い".
Definition level_average : string := "平均的".
Definition level_high : string := "高い".
Definition level_very_high : string := "非常に高い".

(** get_score_level(score): returns the pair (label, colour). *)
Definition get_score_level (score : Q) : string * string :=
  if Qltb score 1 then (level_very_low, "#e74c3c")
  else if Qltb score (5 # 2) then (level_low, "#e67e22")
  else if Qltb score (7 # 2) then (level_somewhat_low, "#f39c12")
  else if Qltb score (9 # 2) then (level_average, "#3498db")
  else if Qltb score (11 # 2) then (level_high, "#27ae60")
  else (level_very_high, "#16a085").

(** The six (label, colour) pairs get_score_level can return. *)
Definition score_bands : list (string * string) :=
  [(level_very_low, "#e74c3c"); (level_low, "#e67e22");
   (level_somewhat_low, "#f39c12"); (level_average, "#3498db");
   (level_high, "#27ae60"); (level_very_high, "#16a085")].

(* --------------------------------------------------------------------- *)
(* calculate_scores                                                      *)
(* --------------------------------------------------------------------- *)

Definition vigor_items : list Z := [1; 2; 5].
Definition dedication_items : list Z := [3; 4; 7].
Definition absorption_items : list Z := [6; 8; 9].

(** The returned dict {"活力 (Vigor)": .., "熱意 (Dedication)": ..,
    "没頭 (Absorption)": .., "総合スコア": ..} as a record. *)
Record scores := mk_scores {
  vigor_score : Q;
  dedication_score : Q;
  absorption_score : Q;
  total_score : Q
}.

Definition calculate_scores (responses : gmap Z Z) : result scores :=
  vs <- sum_items responses vigor_items;;
  vigor <- py_div vs (length vigor_items);;
  ds <- sum_items responses dedication_items;;
  dedication <- py_div ds (length dedication_items);;
  abs_s <- sum_items responses absorption_items;;
  absorption <- py_div abs_s (length absorption_items);;
  total <- py_div (sum_values responses) (size responses);;
  Ok (mk_scores vigor dedication absorption total).

(* --------------------------------------------------------------------- *)
(* calculate_scores with Python's float division                         *)
(* --------------------------------------------------------------------- *)

(** An int as a binary64 float, built from its bits: every intermediate
    value is an integer, so the conversion is exact below 2^53. *)
Fixpoint float_of_pos (p : positive) : float :=
  match p with
  | xH => 1%float
  | xO q => PrimFloat.mul 2%float (float_of_pos q)
  | xI q => PrimFloat.add (PrimFloat.mul 2%float (float_of_pos q)) 1%float
  end.

Definition float_of_Z (z : Z) : float :=
  match z with
  | Z0 => 0%float
  | Zpos p => float_of_pos p
  | Zneg p => PrimFloat.opp (float_of_pos p)
  end.

(** Python's `a / n` for ints a and n = len(...): both operands below 2^53
    are converted exactly to float and divided once, rounding to nearest
    (CPython's path for such operands; the answers here are 0-6). *)
Definition py_true_div (a : Z) (n : nat) : result float :=
  match n with
  | O => Raise ZeroDivisionError
  | _ => Ok (PrimFloat.div (float_of_Z a) (float_of_Z (Z.of_nat n)))
  end.

(** The returned dict with its float values. *)
Record scores_f := mk_scores_f {
  vigor_f : float;
  dedication_f : float;
  absorption_f : float;
  total_f : float
}.

Definition calculate_scores_f (responses : gmap Z Z) : result scores_f :=
  vs <- sum_items responses vigor_items;;
  vigor <- py_true_div vs (length vigor_items);;
  ds <- sum_items responses dedication_items;;
  dedication <- py_true_div ds (length dedication_items);;
  abs_s <- sum_items responses absorption_items;;
  absorption <- py_true_div abs_s (length absorption_items);;
  total <- py_true_div (sum_values responses) (size responses);;
  Ok (mk_scores_f vigor dedication absorption total).

(** The float value of the expression `(vigor + dedication + absorption) / 3`. *)
Definition mean_of_subscales_f (r : scores_f) : float :=
  PrimFloat.div (PrimFloat.add (PrimFloat.add (vigor_f r) (dedication_f r)) (absorption_f r))
    (float_of_Z 3).

(* --------------------------------------------------------------------- *)
(* get_interpretation                                                    *)
(* --------------------------------------------------------------------- *)

(* The six narrative texts of the `interpretations` dict, verbatim
   (Python triple-quoted strings, leading newline and indentation kept). *)
Definition text_very_low : string := "
        ワークエンゲージメントが非常に低い状態です。仕事に対するエネルギーや意欲が
        著しく低下している可能性があります。職場環境や業務内容の見直し、
        上司や同僚との対話、専門家への相談を検討することをお勧めします。
        ".

Definition text_low : string := "
        ワークエンゲージメントが低めの状態です。仕事への活力や熱意を
        取り戻すために、業務の優先順位の見直しや、達成感を得られる
        小さな目標設定から始めてみることをお勧めします。
        ".

Definition text_somewhat_low : string := "
        ワークエンゲージメントがやや低い状態です。仕事の意義や
        やりがいを再確認し、強みを活かせる業務に注力することで、
        エンゲージメントの向上が期待できます。
        ".

Definition text_average : string := "
        ワークエンゲージメントは平均的なレベルです。現状を維持しながら、
        より充実した仕事経験を得るために、新しいチャレンジや
        スキルアップの機会を探してみてはいかがでしょうか。
        ".

Definition text_high : string := "
        ワークエンゲージメントが高い状態です。仕事に対して
        ポジティブな感情を持ち、活力に満ちた状態と言えます。
        この良い状態を維持するために、適度な休息も大切にしてください。
        ".

Definition text_very_high : string := "
        ワークエンゲージメントが非常に高い状態です。仕事に対して
        強い情熱とエネルギーを持っています。素晴らしい状態ですが、
        燃え尽き症候群を防ぐため、ワークライフバランスにも注意を払いましょう。
        ".

(** The `interpretations` dict: label -> narrative text. *)
Definition interpretations : gmap string string :=
  list_to_map
    [(level_very_low, text_very_low); (level_low, text_low);
     (level_somewhat_low, text_somewhat_low); (level_average, text_average);
     (level_high, text_high); (level_very_high, text_very_high)].

(** `interpretations.get(level, "")`: the default is the empty string. *)
Definition interpretations_get (level : string) : string :=
  default EmptyString (interpretations !! level).

(** get_interpretation(scores): the text for the overall score's level. *)
Definition get_interpretation (sc : scores) : string :=
  let '(level, _) := get_score_level (total_score sc) in
  interpretations_get level.

Close Scope string_scope.

(* --------------------------------------------------------------------- *)
(* main(): the answer form and the gate of the result tab                *)
(* --------------------------------------------------------------------- *)

(** The keys of QUESTIONS, in the dict's order. *)
Definition question_ids : list Z := [1; 2; 3; 4; 5; 6; 7; 8; 9].

(** `list(SCALE_OPTIONS.keys())`: the options of every select_slider. *)
Definition scale_option_keys : list Z := [0; 1; 2; 3; 4; 5; 6].

(** The loop `for q_num, q_data in QUESTIONS.items(): ... responses[q_num]
    = response` starting from `responses = {}`; `slider q` is the value the
    select_slider of question q returns. *)
Definition collect_responses (slider : Z -> Z) : gmap Z Z :=
  foldl (fun m q => <[q := slider q]> m) ∅ question_ids.

(** The guard of the result tab:
    `if st.session_state.submitted and st.session_state.responses:`
    (a dict is truthy iff it is non-empty). Nothing else is checked before
    calculate_scores runs. *)
Definition results_gate (submitted : bool) (responses : gmap Z Z) : bool :=
  submitted && negb (bool_decide (responses = ∅)).

(* --------------------------------------------------------------------- *)
(* The spec's validateComplete, for comparison with the code             *)
(* --------------------------------------------------------------------- *)

(** Written from the spec's words (there is no such function in
    src/app.py): true iff all 9 ids are present with a value in [0,6]. *)
Definition spec_validateComplete (responses : gmap Z Z) : bool :=
  forallb (fun i => match responses !! i with
                    | Some v => (0 <=? v) && (v <=? 6)
                    | None => false
                    end) question_ids.

(** A response set has exactly the ids 1-9. *)
Definition has_exact_ids (responses : gmap Z Z) : Prop :=
  dom responses = list_to_set question_ids.

(** Every value of the response set lies in [0,6]. *)
Definition values_in_range (responses : gmap Z Z) : Prop :=
  forall k v, responses !! k = Some v -> 0 <= v <= 6.

(* --------------------------------------------------------------------- *)
(* The question catalog and the answer options                           *)
(* --------------------------------------------------------------------- *)

Open Scope string_scope.

(** One entry of QUESTIONS: {"text": .., "subscale": ..}. *)
Record question := mk_question { q_text : string; q_subscale : string }.

Definition subscale_vigor : string := "活力".
Definition subscale_dedication : string := "熱意".
Definition subscale_absorption : string := "没頭".

(** QUESTIONS. *)
Definition QUESTIONS : gmap Z question :=
  list_to_map
    [(1%Z, mk_question "仕事をしていると、活力がみなぎるように感じる" subscale_vigor);
     (2%Z, mk_question "職場では、元気が出て精力的になるように感じる" subscale_vigor);
     (3%Z, mk_question "仕事に熱心である" subscale_dedication);
     (4%Z, mk_question "仕事は、私に活力を与えてくれる" subscale_dedication);
     (5%Z, mk_question "朝に目がさめると、さあ仕事へ行こう、という気持ちになる" subscale_vigor);
     (6%Z, mk_question "仕事に没頭しているとき、幸せだと感じる" subscale_absorption);
     (7%Z, mk_question "自分の仕事に誇りを感じる" subscale_dedication);
     (8%Z, mk_question "私は仕事にのめり込んでいる" subscale_absorption);
     (9%Z, mk_question "仕事をしていると、つい夢中になってしまう" subscale_absorption)].

(** SCALE_OPTIONS. *)
Definition SCALE_OPTIONS : gmap Z string :=
  list_to_map
    [(0%Z, "0 - 全くない"); (1%Z, "1 - 1年に数回以下"); (2%Z, "2 - 1ヶ月に1回以下");
     (3%Z, "3 - 1ヶ月に数回"); (4%Z, "4 - 1週間に1回"); (5%Z, "5 - 1週間に数回");
     (6%Z, "6 - 毎日")].

(** Python's `s.split(sep)` for a non-empty `sep` (the code only splits on
    " - "): scanning left to right, each occurrence of `sep` ends the
    current piece, and the `skip` characters after the first one of an
    occurrence are dropped. `cur` holds the current piece reversed. *)
Fixpoint split_go (sep s : string) (skip : nat) (cur : list Ascii.ascii) : list string :=
  match s with
  | EmptyString => [String.string_of_list_ascii (rev cur)]
  | String c rest =>
      match skip with
      | S k => split_go sep rest k cur
      | O =>
          if String.prefix sep s
          then String.string_of_list_ascii (rev cur) :: split_go sep rest (String.length sep - 1) []
          else split_go sep rest 0 (c :: cur)
      end
  end.

Definition py_split (sep s : string) : list string := split_go sep s 0 [].

(* --------------------------------------------------------------------- *)
(* create_radar_chart and create_bar_chart                               *)
(* --------------------------------------------------------------------- *)

(** `values.append(values[0])`: close the polygon (the lists the code
    passes have three elements, so `values[0]` exists). *)
Definition close_loop {A} (l : list A) : list A :=
  match l with
  | [] => []
  | x :: _ => l ++ [x]
  end.

(** The `theta` and `r` of the radar trace. *)
Definition radar_categories : list string :=
  close_loop [subscale_vigor; subscale_dedication; subscale_absorption].

Definition radar_values (sc : scores) : list Q :=
  close_loop [vigor_score sc; dedication_score sc; absorption_score sc].

(** `radialaxis=dict(range=[0, 6])` and `yaxis_range=[0, 6]`. *)
Definition radar_axis_range : Q * Q := (0, 6)%Q.
Definition bar_axis_range : Q * Q := (0, 6)%Q.

(** `scores.items()` of the dict calculate_scores returns, in its order. *)
Definition scores_items (sc : scores) : list (string * Q) :=
  [("活力 (Vigor)", vigor_score sc); ("熱意 (Dedication)", dedication_score sc);
   ("没頭 (Absorption)", absorption_score sc); ("総合スコア", total_score sc)].

(** create_bar_chart: the bars (x = key, y = score) and
    `colors = [get_score_level(s)[1] for s in scores.values()]`. *)
Definition bar_data (sc : scores) : list (string * Q) := scores_items sc.

Definition bar_colors (sc : scores) : list string :=
  map (fun kv => snd (get_score_level kv.2)) (scores_items sc).

(* --------------------------------------------------------------------- *)
(* main(): the detail table                                              *)
(* --------------------------------------------------------------------- *)

(** One row of `detail_data`: 質問番号, 質問内容, サブスケール, 回答, 回答ラベル. *)
Record detail_row := mk_detail_row {
  d_number : string;
  d_text : string;
  d_subscale : string;
  d_answer : Z;
  d_label : string
}.

(** The exceptions the detail table can raise: KeyError from
    `QUESTIONS[q_num]` or `SCALE_OPTIONS[response]`, IndexError from
    `.split(" - ")[1]`. *)
Inductive detail_error :=
| DKeyError (k : Z)
| DIndexError.

(** The row built for one `(q_num, response)`, in the dict literal's
    evaluation order. *)
Definition detail_row_of (q_num response : Z) : detail_row + detail_error :=
  match QUESTIONS !! q_num with
  | None => inr (DKeyError q_num)
  | Some qd =>
      match SCALE_OPTIONS !! response with
      | None => inr (DKeyError response)
      | Some opt =>
          match py_split " - " opt !! 1%nat with
          | None => inr DIndexError
          | Some label =>
              inl (mk_detail_row ("Q" +:+ pretty q_num) (q_text qd) (q_subscale qd)
                                 response label)
          end
      end
  end.

(** The loop `for q_num, response in responses.items(): detail_data.append(..)`;
    the first exception ends it. *)
Fixpoint detail_rows (entries : list (Z * Z)) : list detail_row + detail_error :=
  match entries with
  | [] => inl []
  | (q_num, response) :: rest =>
      match detail_row_of q_num response with
      | inr e => inr e
      | inl row =>
          match detail_rows rest with
          | inr e => inr e
          | inl rows => inl (row :: rows)
          end
      end
  end.

(** Python walks the dict in insertion order; the model walks the gmap's
    own order (map_to_list). The facts proved about the table do not
    depend on the order. *)
Definition detail_data (responses : gmap Z Z) : list detail_row + detail_error :=
  detail_rows (map_to_list responses).

(* --------------------------------------------------------------------- *)
(* main(): the export record                                             *)
(* --------------------------------------------------------------------- *)

(** The values stored in `export_data`. *)
Inductive cell :=
| CText (s : string)
| CNum (q : Q)
| CInt (z : Z).

(** `d[k] = v` on a Python dict kept as its insertion-ordered item list:
    an existing key keeps its place and gets the new value, a new key is
    appended. *)
Fixpoint dict_set (d : list (string * cell)) (k : string) (v : cell) : list (string * cell) :=
  match d with
  | [] => [(k, v)]
  | (k', v') :: rest =>
      if String.eqb k k' then (k', v) :: rest else (k', v') :: dict_set rest k v
  end.

(** The five fixed columns of `export_data`; `timestamp` is
    `datetime.now().strftime('%Y-%m-%d %H:%M:%S')`. *)
Definition export_fixed (timestamp : string) (sc : scores) : list (string * cell) :=
  [("診断日時", CText timestamp); ("総合スコア", CNum (total_score sc));
   ("活力スコア", CNum (vigor_score sc)); ("熱意スコア", CNum (dedication_score sc));
   ("没頭スコア", CNum (absorption_score sc))].

(** `f"Q{q_num}"`. *)
Definition q_column (q_num : Z) : string := "Q" +:+ pretty q_num.

(** `export_data` after `for q_num, response in responses.items():
    export_data[f"Q{q_num}"] = response`. *)
Definition export_data (timestamp : string) (sc : scores) (responses : gmap Z Z)
    : list (string * cell) :=
  foldl (fun d kv => dict_set d (q_column kv.1) (CInt kv.2))
        (export_fixed timestamp sc) (map_to_list responses).

Close Scope string_scope.

(* --------------------------------------------------------------------- *)
(* main(): the session and the result tab                                *)
(* --------------------------------------------------------------------- *)

(** `st.session_state.submitted` and `st.session_state.responses`. *)
Record session := mk_session { ss_submitted : bool; ss_responses : gmap Z Z }.

(** The initialisation of a fresh session. *)
Definition initial_session : session := mk_session false ∅.

(** `value=st.session_state.responses.get(q_num, 3)`: the value a slider
    is created with. *)
Definition slider_default (s : session) (q_num : Z) : Z :=
  default 3 (ss_responses s !! q_num).

(** The "結果を見る" button: store the form's answers, mark submitted. *)
Definition submit_answers (slider : Z -> Z) (s : session) : session :=
  mk_session true (collect_responses slider).

(** The "もう一度診断する" button. *)
Definition reset_session (s : session) : session := mk_session false ∅.

(** What the result tab shows: the info message, the results (scores,
    overall level, interpretation, detail rows), or the exception that
    stops it. *)
Inductive results_view :=
| ResultsInfo
| ResultsShown (sc : scores) (total_level : string) (text : string)
               (details : list detail_row)
| ResultsScoreError (e : py_error)
| ResultsDetailError (e : detail_error).

Definition results_tab (s : session) : results_view :=
  if results_gate (ss_submitted s) (ss_responses s) then
    match calculate_scores (ss_responses s) with
    | Raise e => ResultsScoreError e
    | Ok sc =>
        match detail_data (ss_responses s) with
        | inr e => ResultsDetailError e
        | inl rows =>
            ResultsShown sc (fst (get_score_level (total_score sc)))
                         (get_interpretation sc) rows
        end
    end
  else ResultsInfo.

(** Position of an element in a list (length of the list when absent). *)
Fixpoint index_of {A} `{EqDecision A} (x : A) (l : list A) : nat :=
  match l with
  | [] => 0
  | y :: rest => if decide (x = y) then 0 else S (index_of x rest)
  end.

(* --------------------------------------------------------------------- *)
(* Concrete inputs                                                       *)
(* --------------------------------------------------------------------- *)

(** The spec's mixed example {1:6,2:6,3:0,4:0,5:6,6:0,7:0,8:0,9:0}. *)
Definition mixed_example : gmap Z Z :=
  list_to_map [(1, 6); (2, 6); (3, 0); (4, 0); (5, 6); (6, 0); (7, 0); (8, 0); (9, 0)].

(** All nine ids present, but Q1 answered 7, outside [0,6]. *)
Definition out_of_range_example : gmap Z Z :=
  list_to_map [(1, 7); (2, 0); (3, 0); (4, 0); (5, 0); (6, 0); (7, 0); (8, 0); (9, 0)].

(** Only Q1 answered. *)
Definition only_q1_example : gmap Z Z := {[1 := 0]}.

(** All nine ids present: Q6 answered 5, Q8 answered 6, the others 0. *)
Definition split_absorption_example : gmap Z Z :=
  list_to_map [(1, 0); (2, 0); (3, 0); (4, 0); (5, 0); (6, 5); (7, 0); (8, 6); (9, 0)].

(** A label that is not one of the six levels. *)
Definition unknown_level : string := "unknown"%string.

(** A slider setting: every question answered 4. *)
Definition all_fours (q : Z) : Z := 4.

(* ===================================================================== *)
(* Lemmas                                                                *)
(* ===================================================================== *)

(** Membership in a concrete list of ids, decided by computation. *)
Ltac solve_mem := apply (bool_decide_unpack _); vm_compute; reflexivity.

(* --------------------------------------------------------------------- *)
(* Comparisons                                                           *)
(* --------------------------------------------------------------------- *)

Lemma Qltb_true_iff (a b : Q) : Qltb a b = true <-> (a < b)%Q.
Proof.
  unfold Qltb. destruct (Qle_bool b a) eqn:E; simpl.
  - apply Qle_bool_iff in E. split; [discriminate | intros; lra].
  - split; [intros _ | reflexivity].
    apply Qnot_le_lt. intros Hle. apply Qle_bool_iff in Hle. congruence.
Qed.

Lemma Qltb_false_iff (a b : Q) : Qltb a b = false <-> (b <= a)%Q.
Proof.
  unfold Qltb. destruct (Qle_bool b a) eqn:E; simpl.
  - apply Qle_bool_iff in E. split; auto.
  - split; [discriminate |]. intros Hle. apply Qle_bool_iff in Hle. congruence.
Qed.

(** Case on every `Qltb` test of the goal, turning each outcome into the
    comparison it stands for. *)
Ltac qltb_cases :=
  repeat match goal with
  | |- context [Qltb ?a ?b] =>
      let E := fresh "E" in
      destruct (Qltb a b) eqn:E;
      [apply Qltb_true_iff in E | apply Qltb_false_iff in E]
  end.

Lemma Qltb_compat (a a' b : Q) : (a == a')%Q -> Qltb a b = Qltb a' b.
Proof.
  intros Heq. destruct (Qltb a' b) eqn:E.
  - apply Qltb_true_iff in E. apply Qltb_true_iff. lra.
  - apply Qltb_false_iff in E. apply Qltb_false_iff. lra.
Qed.

(* --------------------------------------------------------------------- *)
(* get_score_level                                                       *)
(* --------------------------------------------------------------------- *)

(** C2: get_score_level bands a score into six half-open bins, each upper
    bound exclusive except the top one: s < 1.0 is Very Low ("非常に低い"),
    1.0 <= s < 2.5 Low ("低い"), 2.5 <= s < 3.5 Somewhat Low ("やや低い"),
    3.5 <= s < 4.5 Average ("平均的"), 4.5 <= s < 5.5 High ("高い"),
    s >= 5.5 Very High ("非常に高い"); so 1.0 is Low, 3.5 is Average and
    5.5 is Very High. *)
Theorem get_score_level_bands (s : Q) :
  ((s < 1)%Q -> fst (get_score_level s) = level_very_low) /\
  ((1 <= s)%Q -> (s < 5 # 2)%Q -> fst (get_score_level s) = level_low) /\
  ((5 # 2 <= s)%Q -> (s < 7 # 2)%Q ->
     fst (get_score_level s) = level_somewhat_low) /\
  ((7 # 2 <= s)%Q -> (s < 9 # 2)%Q -> fst (get_score_level s) = level_average) /\
  ((9 # 2 <= s)%Q -> (s < 11 # 2)%Q -> fst (get_score_level s) = level_high) /\
  ((11 # 2 <= s)%Q -> fst (get_score_level s) = level_very_high) /\
  fst (get_score_level 1) = level_low /\
  fst (get_score_level (7 # 2)) = level_average /\
  fst (get_score_level (11 # 2)) = level_very_high.
Proof.
  unfold get_score_level.
  repeat split; intros; qltb_cases; simpl; try reflexivity; exfalso; lra.
Qed.

(** C10: get_score_level is total on every score, also outside [0,6]: it
    returns one of the six distinct (label, colour) pairs; every score
    below 1.0 (negatives included) gives the Very Low pair and every score
    at or above 5.5 (above 6 included) the Very High pair. *)
Theorem get_score_level_total (s : Q) :
  In (get_score_level s) score_bands /\ NoDup score_bands /\
  ((s < 1)%Q -> get_score_level s = (level_very_low, "#e74c3c"%string)) /\
  ((11 # 2 <= s)%Q -> get_score_level s = (level_very_high, "#16a085"%string)).
Proof.
  split; [| split; [| split]].
  - unfold get_score_level, score_bands; qltb_cases; simpl; tauto.
  - apply NoDup_ListNoDup. vm_compute. repeat constructor; simpl; intuition congruence.
  - intros. unfold get_score_level. qltb_cases; try reflexivity; exfalso; lra.
  - intros. unfold get_score_level. qltb_cases; try reflexivity; exfalso; lra.
Qed.

(* --------------------------------------------------------------------- *)
(* Sums over the responses dict                                          *)
(* --------------------------------------------------------------------- *)

(** Sum of the values of the listed keys (each read with `!!!`). *)
Lemma sum_items_spec (m : gmap Z Z) (items : list Z) :
  (Forall (fun i => is_Some (m !! i)) items /\
   sum_items m items = Ok (foldr (fun i acc => m !!! i + acc) 0 items)) \/
  (exists j, j ∈ items /\ m !! j = None /\ sum_items m items = Raise (KeyError j)).
Proof.
  induction items as [|i items IH]; simpl.
  - left. split; [constructor | reflexivity].
  - unfold get_item. destruct (m !! i) as [v|] eqn:Hi.
    + rewrite (lookup_total_correct m i v Hi). simpl.
      destruct IH as [[Hall ->] | (j & Hj & Hmj & ->)].
      * left. split; [constructor; eauto | reflexivity].
      * right. exists j. split; [apply elem_of_cons; auto | auto].
    + right. exists i. split; [apply elem_of_cons; auto | auto].
Qed.

Lemma sum_items_present (m : gmap Z Z) (items : list Z) :
  Forall (fun i => is_Some (m !! i)) items ->
  sum_items m items = Ok (foldr (fun i acc => m !!! i + acc) 0 items).
Proof.
  intros Hall. destruct (sum_items_spec m items) as [[_ H] | (j & Hj & Hmj & _)];
    [exact H |].
  rewrite Forall_forall in Hall.
  destruct (Hall j Hj) as [v Hv]. congruence.
Qed.

Lemma sum_items_bounds (m : gmap Z Z) (items : list Z) :
  values_in_range m -> Forall (fun i => is_Some (m !! i)) items ->
  0 <= foldr (fun i acc => m !!! i + acc) 0 items <= 6 * Z.of_nat (length items).
Proof.
  intros Hr. induction items as [|i items IH]; simpl; intros Hall; [lia |].
  inversion Hall as [|? ? [v Hv] Hrest]; subst.
  rewrite (lookup_total_correct m i v Hv).
  specialize (Hr i v Hv). specialize (IH Hrest). lia.
Qed.

Lemma sum_values_empty : sum_values ∅ = 0.
Proof. reflexivity. Qed.

Lemma sum_values_insert (m : gmap Z Z) (k v : Z) :
  m !! k = None -> sum_values (<[k := v]> m) = sum_values m + v.
Proof.
  intros Hk. unfold sum_values.
  rewrite map_fold_insert_L; [reflexivity | | exact Hk].
  intros. lia.
Qed.

Lemma sum_values_bounds (m : gmap Z Z) :
  values_in_range m -> 0 <= sum_values m <= 6 * Z.of_nat (size m).
Proof.
  induction m as [|k v m Hk IH] using map_ind; intros Hr.
  - rewrite sum_values_empty, map_size_empty. lia.
  - rewrite sum_values_insert by exact Hk.
    rewrite map_size_insert_None by exact Hk.
    assert (Hv : 0 <= v <= 6) by (apply (Hr k); apply lookup_insert_eq).
    assert (Hm : values_in_range m).
    { intros j w Hj. apply (Hr j). rewrite lookup_insert_ne; [exact Hj |].
      intros ->. congruence. }
    specialize (IH Hm). lia.
Qed.

(** A dict with exactly the ids 1-9 is the one built from its nine values. *)
Lemma exact_ids_shape (m : gmap Z Z) :
  has_exact_ids m ->
  m = <[1 := m !!! 1]> (<[2 := m !!! 2]> (<[3 := m !!! 3]> (<[4 := m !!! 4]>
      (<[5 := m !!! 5]> (<[6 := m !!! 6]> (<[7 := m !!! 7]> (<[8 := m !!! 8]>
      (<[9 := m !!! 9]> ∅)))))))).
Proof.
  unfold has_exact_ids. intros Hdom. apply map_eq. intros i.
  destruct (decide (i ∈ question_ids)) as [Hin | Hout].
  - assert (Hs : is_Some (m !! i)).
    { apply elem_of_dom. rewrite Hdom. apply elem_of_list_to_set. exact Hin. }
    rewrite (lookup_lookup_total m i Hs).
    unfold question_ids in Hin.
    repeat (apply elem_of_cons in Hin as [-> | Hin]; [by simplify_map_eq |]).
    apply elem_of_nil in Hin. contradiction.
  - assert (Hn : m !! i = None).
    { apply not_elem_of_dom. rewrite Hdom. rewrite elem_of_list_to_set. exact Hout. }
    rewrite Hn. unfold question_ids in Hout.
    repeat (apply not_elem_of_cons in Hout as [? Hout]).
    by simplify_map_eq.
Qed.

Lemma qdiv_bounds (s n : Z) :
  0 < n -> 0 <= s <= 6 * n -> (0 <= inject_Z s / inject_Z n <= 6)%Q.
Proof.
  intros Hn Hs.
  assert (Hq : (0 < inject_Z n)%Q).
  { change 0%Q with (inject_Z 0). rewrite <- Zlt_Qlt. exact Hn. }
  split.
  - apply Qle_shift_div_l; [exact Hq |].
    rewrite Qmult_0_l. change 0%Q with (inject_Z 0). rewrite <- Zle_Qle. lia.
  - apply Qle_shift_div_r; [exact Hq |].
    change 6%Q with (inject_Z 6). rewrite <- inject_Z_mult, <- Zle_Qle. lia.
Qed.

Lemma item_lists_in_questions (j : Z) :
  j ∈ vigor_items \/ j ∈ dedication_items \/ j ∈ absorption_items ->
  j ∈ question_ids.
Proof.
  unfold vigor_items, dedication_items, absorption_items.
  intros [H | [H | H]];
    repeat (apply elem_of_cons in H as [-> | H]; [solve_mem |]);
    apply elem_of_nil in H; contradiction.
Qed.


Lemma present_items (m : gmap Z Z) (items : list Z) :
  (forall i, i ∈ question_ids -> is_Some (m !! i)) ->
  (forall j, j ∈ items -> j ∈ question_ids) ->
  Forall (fun i => is_Some (m !! i)) items.
Proof.
  intros Hall Hsub. apply Forall_forall. intros j Hj. apply Hall, Hsub, Hj.
Qed.

(** calculate_scores on a dict holding the ids 1-9 (and maybe more). *)
Lemma calculate_scores_present (m : gmap Z Z) :
  (forall i, i ∈ question_ids -> is_Some (m !! i)) ->
  calculate_scores m =
  Ok (mk_scores
        (inject_Z (foldr (fun i acc => m !!! i + acc) 0 vigor_items) / inject_Z 3)
        (inject_Z (foldr (fun i acc => m !!! i + acc) 0 dedication_items) / inject_Z 3)
        (inject_Z (foldr (fun i acc => m !!! i + acc) 0 absorption_items) / inject_Z 3)
        (inject_Z (sum_values m) / inject_Z (Z.of_nat (size m)))).
Proof.
  intros Hall. unfold calculate_scores.
  rewrite (sum_items_present m vigor_items)
    by (apply present_items; [exact Hall | intros j Hj; apply item_lists_in_questions; auto]).
  rewrite (sum_items_present m dedication_items)
    by (apply present_items; [exact Hall | intros j Hj; apply item_lists_in_questions; auto]).
  rewrite (sum_items_present m absorption_items)
    by (apply present_items; [exact Hall | intros j Hj; apply item_lists_in_questions; auto]).
  cbn [rbind py_div length vigor_items dedication_items absorption_items].
  destruct (size m) eqn:Hs.
  - apply map_size_empty_iff in Hs. subst m.
    destruct (Hall 1 ltac:(solve_mem)) as [v Hv]. rewrite lookup_empty in Hv. discriminate.
  - reflexivity.
Qed.

(** The overall sum and count of a dict with exactly the ids 1-9. *)
Lemma exact_ids_sum_size (m : gmap Z Z) :
  has_exact_ids m ->
  sum_values m = m !!! 1 + m !!! 2 + m !!! 3 + m !!! 4 + m !!! 5 + m !!! 6
                 + m !!! 7 + m !!! 8 + m !!! 9 /\
  size m = 9%nat.
Proof.
  intros Hd. split.
  - rewrite (exact_ids_shape m Hd) at 1.
    repeat (rewrite sum_values_insert; [| by simplify_map_eq]).
    rewrite sum_values_empty. lia.
  - rewrite <- size_dom. unfold has_exact_ids in Hd. rewrite Hd. vm_compute. reflexivity.
Qed.

Lemma exact_ids_present (m : gmap Z Z) :
  has_exact_ids m -> forall i, i ∈ question_ids -> is_Some (m !! i).
Proof.
  intros Hd i Hi. apply elem_of_dom. unfold has_exact_ids in Hd. rewrite Hd.
  apply elem_of_list_to_set. exact Hi.
Qed.

(** The four scores of a dict with exactly the ids 1-9, as exact means. *)
Lemma exact_ids_scores (m : gmap Z Z) :
  has_exact_ids m ->
  calculate_scores m =
  Ok (mk_scores
        (inject_Z (m !!! 1 + (m !!! 2 + (m !!! 5 + 0))) / inject_Z 3)
        (inject_Z (m !!! 3 + (m !!! 4 + (m !!! 7 + 0))) / inject_Z 3)
        (inject_Z (m !!! 6 + (m !!! 8 + (m !!! 9 + 0))) / inject_Z 3)
        (inject_Z (m !!! 1 + m !!! 2 + m !!! 3 + m !!! 4 + m !!! 5 + m !!! 6
                   + m !!! 7 + m !!! 8 + m !!! 9) / inject_Z 9)).
Proof.
  intros Hd. rewrite (calculate_scores_present m (exact_ids_present m Hd)).
  destruct (exact_ids_sum_size m Hd) as [-> ->]. reflexivity.
Qed.

Lemma mixed_example_exact : has_exact_ids mixed_example.
Proof. unfold has_exact_ids. vm_compute. reflexivity. Qed.

Lemma mixed_example_in_range : values_in_range mixed_example.
Proof.
  intros k v Hk. unfold mixed_example in Hk.
  rewrite <- elem_of_list_to_map in Hk by (vm_compute; repeat constructor; set_solver).
  repeat (apply elem_of_cons in Hk as [Hk | Hk]; [injection Hk as -> ->; lia |]).
  apply elem_of_nil in Hk. contradiction.
Qed.

Lemma split_absorption_example_exact : has_exact_ids split_absorption_example.
Proof. unfold has_exact_ids. vm_compute. reflexivity. Qed.

Lemma split_absorption_example_in_range : values_in_range split_absorption_example.
Proof.
  intros k v Hk. unfold split_absorption_example in Hk.
  rewrite <- elem_of_list_to_map in Hk by (vm_compute; repeat constructor; set_solver).
  repeat (apply elem_of_cons in Hk as [Hk | Hk]; [injection Hk as -> ->; lia |]).
  apply elem_of_nil in Hk. contradiction.
Qed.

(* --------------------------------------------------------------------- *)
(* calculate_scores                                                      *)
(* --------------------------------------------------------------------- *)

(** C1: on a complete response set (exactly the ids 1-9, values in [0,6];
    the proof uses only the ids), calculate_scores returns Vigor = mean
    of Q1, Q2, Q5, Dedication = mean of Q3, Q4, Q7, Absorption = mean of
    Q6, Q8, Q9 and the overall score = mean of all nine answers, each the
    exact quotient (no rounding). *)
Theorem calculate_scores_means (m : gmap Z Z) :
  has_exact_ids m -> values_in_range m ->
  exists r, calculate_scores m = Ok r /\
    (vigor_score r == inject_Z ((m !!! 1 + m !!! 2 + m !!! 5)%Z) / 3)%Q /\
    (dedication_score r == inject_Z ((m !!! 3 + m !!! 4 + m !!! 7)%Z) / 3)%Q /\
    (absorption_score r == inject_Z ((m !!! 6 + m !!! 8 + m !!! 9)%Z) / 3)%Q /\
    (total_score r == inject_Z ((m !!! 1 + m !!! 2 + m !!! 3 + m !!! 4 + m !!! 5
                                + m !!! 6 + m !!! 7 + m !!! 8 + m !!! 9)%Z) / 9)%Q.
Proof.
  intros Hd _. eexists. split; [exact (exact_ids_scores m Hd) |].
  cbn [vigor_score dedication_score absorption_score total_score].
  unfold Qeq; simpl; repeat split; lia.
Qed.

Lemma calculate_scores_means_witness :
  has_exact_ids mixed_example /\ values_in_range mixed_example /\
  exists r, calculate_scores mixed_example = Ok r /\
    (vigor_score r == inject_Z ((mixed_example !!! 1 + mixed_example !!! 2
                                + mixed_example !!! 5)%Z) / 3)%Q /\
    (dedication_score r == inject_Z ((mixed_example !!! 3 + mixed_example !!! 4
                                     + mixed_example !!! 7)%Z) / 3)%Q /\
    (absorption_score r == inject_Z ((mixed_example !!! 6 + mixed_example !!! 8
                                     + mixed_example !!! 9)%Z) / 3)%Q /\
    (total_score r == inject_Z ((mixed_example !!! 1 + mixed_example !!! 2
        + mixed_example !!! 3 + mixed_example !!! 4 + mixed_example !!! 5
        + mixed_example !!! 6 + mixed_example !!! 7 + mixed_example !!! 8
        + mixed_example !!! 9)%Z) / 9)%Q.
Proof.
  split; [exact mixed_example_exact | split; [exact mixed_example_in_range |]].
  exact (calculate_scores_means mixed_example mixed_example_exact mixed_example_in_range).
Defined.



(** C5: when all ids 1-9 are present and every value lies in [0,6],
    calculate_scores returns four scores, each in [0,6]. *)
Theorem calculate_scores_in_range (m : gmap Z Z) :
  (forall i, i ∈ question_ids -> is_Some (m !! i)) -> values_in_range m ->
  exists r, calculate_scores m = Ok r /\
    (0 <= vigor_score r <= 6)%Q /\ (0 <= dedication_score r <= 6)%Q /\
    (0 <= absorption_score r <= 6)%Q /\ (0 <= total_score r <= 6)%Q.
Proof.
  intros Hall Hr. eexists. split; [exact (calculate_scores_present m Hall) |].
  cbn [vigor_score dedication_score absorption_score total_score].
  assert (Hitems : forall items,
    (forall j, j ∈ items -> j ∈ question_ids) -> length items = 3%nat ->
    (0 <= inject_Z (foldr (fun i acc => (m !!! i + acc)%Z) 0%Z items) / inject_Z 3 <= 6)%Q).
  { intros items Hsub Hlen. apply qdiv_bounds; [lia |].
    pose proof (sum_items_bounds m items Hr (present_items m items Hall Hsub)) as Hb.
    rewrite Hlen in Hb. exact Hb. }
  split; [| split; [| split]].
  - apply Hitems; [intros j Hj; apply item_lists_in_questions; auto | reflexivity].
  - apply Hitems; [intros j Hj; apply item_lists_in_questions; auto | reflexivity].
  - apply Hitems; [intros j Hj; apply item_lists_in_questions; auto | reflexivity].
  - apply qdiv_bounds; [| apply sum_values_bounds, Hr].
    destruct (size m) eqn:Hs; [| lia].
    apply map_size_empty_iff in Hs. subst m.
    destruct (Hall 1 ltac:(solve_mem)) as [v Hv]. rewrite lookup_empty in Hv. discriminate.
Qed.

Lemma calculate_scores_in_range_witness :
  (forall i, i ∈ question_ids -> is_Some (mixed_example !! i)) /\
  values_in_range mixed_example /\
  exists r, calculate_scores mixed_example = Ok r /\
    (0 <= vigor_score r <= 6)%Q /\ (0 <= dedication_score r <= 6)%Q /\
    (0 <= absorption_score r <= 6)%Q /\ (0 <= total_score r <= 6)%Q.
Proof.
  pose proof (exact_ids_present mixed_example mixed_example_exact) as Hall.
  split; [exact Hall | split; [exact mixed_example_in_range |]].
  exact (calculate_scores_in_range mixed_example Hall mixed_example_in_range).
Defined.

(** C7: calculate_scores and get_score_level are functions of their input
    alone: dicts with the same entries (whatever their insertion order)
    give the same result, and equal scores give the same level. *)
Theorem scoring_deterministic (m1 m2 : gmap Z Z) (s1 s2 : Q) :
  (forall k, m1 !! k = m2 !! k) -> (s1 == s2)%Q ->
  calculate_scores m1 = calculate_scores m2 /\
  get_score_level s1 = get_score_level s2.
Proof.
  intros Hm Hs. split.
  - apply map_eq in Hm. subst m2. reflexivity.
  - unfold get_score_level. rewrite !(fun b => Qltb_compat s1 s2 b Hs). reflexivity.
Qed.

Lemma scoring_deterministic_witness :
  calculate_scores mixed_example = calculate_scores mixed_example /\
  get_score_level (2 # 1) = get_score_level (4 # 2).
Proof.
  apply scoring_deterministic; [intros k; reflexivity | vm_compute; reflexivity].
Defined.

(** C8: on {1:6,2:6,3:0,4:0,5:6,6:0,7:0,8:0,9:0} calculate_scores gives
    Vigor 6 (Very High), Dedication 0 (Very Low), Absorption 0 (Very Low)
    and overall 2 (Low). *)
Theorem mixed_example_scores :
  exists r, calculate_scores mixed_example = Ok r /\
    (vigor_score r == 6)%Q /\ fst (get_score_level (vigor_score r)) = level_very_high /\
    (dedication_score r == 0)%Q /\
    fst (get_score_level (dedication_score r)) = level_very_low /\
    (absorption_score r == 0)%Q /\
    fst (get_score_level (absorption_score r)) = level_very_low /\
    (total_score r == 2)%Q /\ fst (get_score_level (total_score r)) = level_low.
Proof.
  eexists. split; [vm_compute; reflexivity |].
  repeat split; vm_compute; reflexivity.
Qed.

(** C9 counterexample: on the complete set {6:5, 8:6, the others 0}, all
    answers in 0-6, the code's overall score is 11/9 rounded once,
    1.2222222222222223 (0x1.38e38e38e38e4p+0), while
    (Vigor + Dedication + Absorption) / 3 over the code's float subscale
    scores 0.0, 0.0 and 3.6666666666666665 is 1.222222222222222
    (0x1.38e38e38e38e3p+0): the overall score is not that mean. *)
Lemma total_differs_from_mean_of_subscales :
  has_exact_ids split_absorption_example /\
  values_in_range split_absorption_example /\
  exists r, calculate_scores_f split_absorption_example = Ok r /\
    total_f r = 0x1.38e38e38e38e4p+0%float /\
    mean_of_subscales_f r = 0x1.38e38e38e38e3p+0%float /\
    PrimFloat.eqb (total_f r) (mean_of_subscales_f r) = false.
Proof.
  split; [exact split_absorption_example_exact |].
  split; [exact split_absorption_example_in_range |].
  eexists. split; [vm_compute; reflexivity |].
  split; [| split]; vm_compute; reflexivity.
Qed.

(** C9 (amended): on a response set with exactly the ids 1-9 and answers
    in 0-6, each subscale score is the sum of its three answers divided
    by 3, and the overall score is one float division of the sum of all
    nine answers, which is the sum of the three subscale sums, by 9. In
    exact arithmetic that quotient is the mean of the three subscale means;
    the code never forms that mean, and its rounded results can differ
    from the float value of (Vigor + Dedication + Absorption) / 3. *)
Theorem total_is_rounded_sum_over_nine (m : gmap Z Z) :
  has_exact_ids m -> values_in_range m ->
  exists r vs ds abs_s,
    calculate_scores_f m = Ok r /\
    sum_items m vigor_items = Ok vs /\
    sum_items m dedication_items = Ok ds /\
    sum_items m absorption_items = Ok abs_s /\
    py_true_div vs 3 = Ok (vigor_f r) /\
    py_true_div ds 3 = Ok (dedication_f r) /\
    py_true_div abs_s 3 = Ok (absorption_f r) /\
    sum_values m = vs + ds + abs_s /\
    py_true_div (vs + ds + abs_s) 9 = Ok (total_f r) /\
    0 <= vs + ds + abs_s <= 54 /\
    (inject_Z (vs + ds + abs_s)%Z / inject_Z 9 ==
     (inject_Z vs / inject_Z 3 + inject_Z ds / inject_Z 3
      + inject_Z abs_s / inject_Z 3) / inject_Z 3)%Q.
Proof.
  intros Hd Hr.
  pose proof (exact_ids_present m Hd) as Hall.
  assert (Hsub : forall items, (forall j, j ∈ items -> j ∈ question_ids) ->
    sum_items m items = Ok (foldr (fun i acc => m !!! i + acc) 0 items)).
  { intros items Hin. apply sum_items_present, present_items; [exact Hall | exact Hin]. }
  pose proof (Hsub vigor_items
    (fun j Hj => item_lists_in_questions j (or_introl Hj))) as Hv.
  pose proof (Hsub dedication_items
    (fun j Hj => item_lists_in_questions j (or_intror (or_introl Hj)))) as Hde.
  pose proof (Hsub absorption_items
    (fun j Hj => item_lists_in_questions j (or_intror (or_intror Hj)))) as Ha.
  cbn [foldr vigor_items dedication_items absorption_items] in Hv, Hde, Ha.
  destruct (exact_ids_sum_size m Hd) as [Hsum Hsize].
  pose proof (sum_values_bounds m Hr) as Hb. rewrite Hsize in Hb.
  set (vs := m !!! 1 + (m !!! 2 + (m !!! 5 + 0))) in *.
  set (ds := m !!! 3 + (m !!! 4 + (m !!! 7 + 0))) in *.
  set (abs_s := m !!! 6 + (m !!! 8 + (m !!! 9 + 0))) in *.
  assert (Htot : sum_values m = vs + ds + abs_s) by (subst vs ds abs_s; lia).
  exists (mk_scores_f (PrimFloat.div (float_of_Z vs) (float_of_Z 3))
                      (PrimFloat.div (float_of_Z ds) (float_of_Z 3))
                      (PrimFloat.div (float_of_Z abs_s) (float_of_Z 3))
                      (PrimFloat.div (float_of_Z (vs + ds + abs_s)) (float_of_Z 9))),
         vs, ds, abs_s.
  split.
  { unfold calculate_scores_f. rewrite Hv, Hde, Ha, Hsize, Htot. reflexivity. }
  do 8 (split; [first [assumption | reflexivity] |]).
  split; [simpl in Hb; lia |].
  unfold Qeq; simpl; lia.
Qed.

Lemma total_is_rounded_sum_over_nine_witness :
  has_exact_ids mixed_example /\ values_in_range mixed_example /\
  exists r vs ds abs_s,
    calculate_scores_f mixed_example = Ok r /\
    sum_items mixed_example vigor_items = Ok vs /\
    sum_items mixed_example dedication_items = Ok ds /\
    sum_items mixed_example absorption_items = Ok abs_s /\
    py_true_div vs 3 = Ok (vigor_f r) /\
    py_true_div ds 3 = Ok (dedication_f r) /\
    py_true_div abs_s 3 = Ok (absorption_f r) /\
    sum_values mixed_example = vs + ds + abs_s /\
    py_true_div (vs + ds + abs_s) 9 = Ok (total_f r) /\
    0 <= vs + ds + abs_s <= 54 /\
    (inject_Z (vs + ds + abs_s)%Z / inject_Z 9 ==
     (inject_Z vs / inject_Z 3 + inject_Z ds / inject_Z 3
      + inject_Z abs_s / inject_Z 3) / inject_Z 3)%Q.
Proof.
  split; [exact mixed_example_exact |].
  split; [exact mixed_example_in_range |].
  exact (total_is_rounded_sum_over_nine mixed_example
           mixed_example_exact mixed_example_in_range).
Defined.

(* --------------------------------------------------------------------- *)
(* The answer form and the gate of the result tab                        *)
(* --------------------------------------------------------------------- *)

Lemma foldl_insert_lookup (f : Z -> Z) (l : list Z) (m0 : gmap Z Z) (q : Z) :
  foldl (fun m k => <[k := f k]> m) m0 l !! q =
  if decide (q ∈ l) then Some (f q) else m0 !! q.
Proof.
  revert m0. induction l as [|k l IH]; intros m0; simpl.
  - destruct (decide (q ∈ [])) as [H|]; [apply elem_of_nil in H; contradiction | reflexivity].
  - rewrite IH. rewrite lookup_insert.
    destruct (decide (q ∈ l)), (decide (q ∈ k :: l)) as [H|H];
      try rewrite elem_of_cons in H; try case_decide; subst; try reflexivity;
      set_solver.
Qed.

Lemma collect_responses_lookup (slider : Z -> Z) (q : Z) :
  collect_responses slider !! q =
  if decide (q ∈ question_ids) then Some (slider q) else None.
Proof.
  unfold collect_responses. rewrite foldl_insert_lookup.
  destruct (decide (q ∈ question_ids)); [reflexivity | apply lookup_empty].
Qed.

Lemma scale_option_bounds (v : Z) : v ∈ scale_option_keys -> 0 <= v <= 6.
Proof.
  unfold scale_option_keys. intros H.
  repeat (apply elem_of_cons in H as [-> | H]; [lia |]).
  apply elem_of_nil in H. contradiction.
Qed.

(** C4 (counterexample): the code has no validateComplete; the only guard
    before calculate_scores, the result tab's `submitted and responses`,
    accepts the incomplete set {1: 0}, which the spec's validateComplete
    rejects, and calculate_scores then raises KeyError on Q2. *)
Lemma gate_accepts_incomplete :
  results_gate true only_q1_example = true /\
  spec_validateComplete only_q1_example = false /\
  calculate_scores only_q1_example = Raise (KeyError 2).
Proof. split; [| split]; vm_compute; reflexivity. Qed.

(** C4 (amended): no operation checks completeness. The result tab only
    checks that the session is submitted and the responses dict is
    non-empty. Completeness comes from the answer form: one select_slider
    per question 1-9 whose options are 0-6 fills the dict, so every
    submitted dict has exactly the ids 1-9 with values in [0,6]. *)
Theorem form_responses_complete (slider : Z -> Z) :
  (forall q, q ∈ question_ids -> slider q ∈ scale_option_keys) ->
  (forall (submitted : bool) (m : gmap Z Z),
     results_gate submitted m = true <-> submitted = true /\ m <> ∅) /\
  has_exact_ids (collect_responses slider) /\
  values_in_range (collect_responses slider) /\
  spec_validateComplete (collect_responses slider) = true.
Proof.
  intros Hs. split; [| split; [| split]].
  - intros submitted m. unfold results_gate.
    rewrite andb_true_iff, negb_true_iff, bool_decide_eq_false. tauto.
  - unfold has_exact_ids. apply set_eq. intros q.
    rewrite elem_of_dom, elem_of_list_to_set, collect_responses_lookup.
    destruct (decide (q ∈ question_ids)) as [H|H].
    + split; intros _; [exact H | eexists; reflexivity].
    + split; intros Hq; [destruct Hq as [? Hq]; discriminate | contradiction].
  - intros q v Hq. rewrite collect_responses_lookup in Hq.
    destruct (decide (q ∈ question_ids)) as [H|]; [| discriminate].
    injection Hq as <-. apply scale_option_bounds, Hs, H.
  - unfold spec_validateComplete. apply forallb_forall. intros q Hq.
    apply list_elem_of_In in Hq. rewrite collect_responses_lookup.
    destruct (decide (q ∈ question_ids)) as [_|]; [| contradiction].
    pose proof (scale_option_bounds _ (Hs q Hq)). lia.
Qed.

Lemma form_responses_complete_witness :
  (forall q, q ∈ question_ids -> all_fours q ∈ scale_option_keys) /\
  (forall (submitted : bool) (m : gmap Z Z),
     results_gate submitted m = true <-> submitted = true /\ m <> ∅) /\
  has_exact_ids (collect_responses all_fours) /\
  values_in_range (collect_responses all_fours) /\
  spec_validateComplete (collect_responses all_fours) = true.
Proof.
  assert (Hs : forall q, q ∈ question_ids -> all_fours q ∈ scale_option_keys)
    by (intros q _; solve_mem).
  split; [exact Hs | exact (form_responses_complete all_fours Hs)].
Defined.

(* --------------------------------------------------------------------- *)
(* get_interpretation                                                    *)
(* --------------------------------------------------------------------- *)

(** C6 (counterexample): a label outside the six levels does not abort;
    `interpretations.get(level, "")` returns the empty string. *)
Lemma interpretation_unknown_is_empty :
  interpretations_get unknown_level = EmptyString.
Proof. vm_compute. reflexivity. Qed.

(** C6 (amended): the lookup maps each of the six labels to its fixed
    text; any other label gives the empty string, with no error; and
    get_interpretation, which only looks up labels of get_score_level,
    never reaches that fallback: its text is never empty. *)
Theorem interpretation_lookup_cases :
  interpretations_get level_very_low = text_very_low /\
  interpretations_get level_low = text_low /\
  interpretations_get level_somewhat_low = text_somewhat_low /\
  interpretations_get level_average = text_average /\
  interpretations_get level_high = text_high /\
  interpretations_get level_very_high = text_very_high /\
  (forall level : string,
     level ∉ [level_very_low; level_low; level_somewhat_low; level_average;
              level_high; level_very_high] ->
     interpretations_get level = EmptyString) /\
  (forall sc : scores, get_interpretation sc <> EmptyString).
Proof.
  repeat split; [vm_compute; reflexivity .. | |].
  - intros level Hl. unfold interpretations_get, interpretations.
    rewrite not_elem_of_list_to_map_1; [reflexivity | exact Hl].
  - intros sc. unfold get_interpretation, get_score_level.
    qltb_cases; vm_compute; discriminate.
Qed.

(* ===================================================================== *)
(* Further properties of the code                                        *)
(* ===================================================================== *)

(** calculate_scores reads the ids in the order 1, 2, 5, 3, 4, 7, 6, 8, 9
    and raises KeyError for the first one that is missing. *)
Theorem calculate_scores_first_missing (m : gmap Z Z) (pre post : list Z) (j : Z) :
  vigor_items ++ dedication_items ++ absorption_items = pre ++ j :: post ->
  Forall (fun i => is_Some (m !! i)) pre -> m !! j = None ->
  calculate_scores m = Raise (KeyError j).
Proof.
  intros Heq Hpre Hj.
  assert (Hsome : forall i, i ∈ pre -> m !! i = Some (m !!! i)).
  { intros i Hi. rewrite Forall_forall in Hpre. apply lookup_lookup_total, Hpre, Hi. }
  unfold calculate_scores. cbn [sum_items vigor_items dedication_items absorption_items].
  unfold get_item.
  cbn [vigor_items dedication_items absorption_items app] in Heq.
  do 9 (destruct pre as [|a pre]; simpl in Heq; injection Heq as Ha Heq; subst;
        [rewrite Hj; reflexivity |
         rewrite (Hsome _ ltac:(apply elem_of_cons; left; reflexivity)); cbn [rbind];
         assert (Hsome' : forall i, i ∈ pre -> m !! i = Some (m !!! i))
           by (intros i Hi; apply Hsome, elem_of_cons; right; exact Hi);
         clear Hsome; rename Hsome' into Hsome]).
  destruct pre; discriminate.
Qed.

Lemma calculate_scores_first_missing_witness :
  vigor_items ++ dedication_items ++ absorption_items = [1] ++ 2 :: [5; 3; 4; 7; 6; 8; 9] /\
  Forall (fun i => is_Some (only_q1_example !! i)) [1] /\ only_q1_example !! 2 = None /\
  calculate_scores only_q1_example = Raise (KeyError 2).
Proof.
  assert (H1 : vigor_items ++ dedication_items ++ absorption_items
               = [1] ++ 2 :: [5; 3; 4; 7; 6; 8; 9]) by reflexivity.
  assert (H2 : Forall (fun i => is_Some (only_q1_example !! i)) [1])
    by (repeat constructor; eexists; vm_compute; reflexivity).
  assert (H3 : only_q1_example !! 2 = None) by (vm_compute; reflexivity).
  split; [exact H1 | split; [exact H2 | split; [exact H3 |]]].
  exact (calculate_scores_first_missing only_q1_example [1] [5; 3; 4; 7; 6; 8; 9] 2 H1 H2 H3).
Defined.

(** calculate_scores never raises ZeroDivisionError: a dict it could
    divide by zero for is empty, and then reading Q1 fails first. *)
Theorem calculate_scores_no_zero_division (m : gmap Z Z) :
  calculate_scores m <> Raise ZeroDivisionError.
Proof.
  unfold calculate_scores.
  destruct (sum_items_spec m vigor_items) as [[Hv ->] | (j & _ & _ & ->)];
    [| discriminate].
  cbn [rbind py_div length vigor_items].
  destruct (sum_items_spec m dedication_items) as [[Hd ->] | (j & _ & _ & ->)];
    [| discriminate].
  cbn [rbind py_div length dedication_items].
  destruct (sum_items_spec m absorption_items) as [[Ha ->] | (j & _ & _ & ->)];
    [| discriminate].
  cbn [rbind py_div length absorption_items].
  destruct (size m) eqn:Hs; [| discriminate].
  apply map_size_empty_iff in Hs. subst m.
  inversion Hv as [|? ? [v Hv1] _]. rewrite lookup_empty in Hv1. discriminate.
Qed.

Lemma not_question_ne (k i : Z) : k ∉ question_ids -> i ∈ question_ids -> i <> k.
Proof. intros Hk Hi ->. contradiction. Qed.

(** An entry outside the ids 1-9 does not change the subscale scores but
    is counted in the overall score: calculate_scores averages every
    value of the dict. *)
Theorem calculate_scores_extra_key (m : gmap Z Z) (k v : Z) :
  (forall i, i ∈ question_ids -> is_Some (m !! i)) ->
  k ∉ question_ids -> m !! k = None ->
  exists sc sc', calculate_scores m = Ok sc /\
    calculate_scores (<[k := v]> m) = Ok sc' /\
    vigor_score sc' = vigor_score sc /\
    dedication_score sc' = dedication_score sc /\
    absorption_score sc' = absorption_score sc /\
    total_score sc' = (inject_Z (sum_values m + v) / inject_Z (Z.of_nat (S (size m))))%Q.
Proof.
  intros Hall Hk Hmk.
  assert (Hall' : forall i, i ∈ question_ids -> is_Some (<[k := v]> m !! i)).
  { intros i Hi. rewrite lookup_insert_ne by (apply not_eq_sym, not_question_ne; auto).
    apply Hall, Hi. }
  do 2 eexists. split; [exact (calculate_scores_present m Hall) |].
  split; [exact (calculate_scores_present _ Hall') |].
  cbn [vigor_score dedication_score absorption_score total_score
       foldr vigor_items dedication_items absorption_items].
  assert (Hne : forall i, i ∈ question_ids -> <[k := v]> m !!! i = m !!! i).
  { intros i Hi. apply lookup_total_insert_ne. apply not_eq_sym, not_question_ne; auto. }
  rewrite !Hne by solve_mem.
  rewrite sum_values_insert, map_size_insert_None by exact Hmk.
  repeat split.
Qed.

Lemma calculate_scores_extra_key_witness :
  (forall i, i ∈ question_ids -> is_Some (mixed_example !! i)) /\
  (10 ∉ question_ids) /\ mixed_example !! 10 = None /\
  exists sc sc', calculate_scores mixed_example = Ok sc /\
    calculate_scores (<[10 := 6]> mixed_example) = Ok sc' /\
    vigor_score sc' = vigor_score sc /\
    dedication_score sc' = dedication_score sc /\
    absorption_score sc' = absorption_score sc /\
    total_score sc' = (inject_Z (sum_values mixed_example + 6)
                       / inject_Z (Z.of_nat (S (size mixed_example))))%Q.
Proof.
  pose proof (exact_ids_present mixed_example mixed_example_exact) as Hall.
  assert (Hk : 10 ∉ question_ids) by (apply (bool_decide_unpack _); vm_compute; reflexivity).
  assert (Hmk : mixed_example !! 10 = None) by (vm_compute; reflexivity).
  split; [exact Hall | split; [exact Hk | split; [exact Hmk |]]].
  exact (calculate_scores_extra_key mixed_example 10 6 Hall Hk Hmk).
Defined.

(** The six levels are ordered by the score: a higher score never gets a
    lower level (positions in the list Very Low .. Very High). *)
Theorem get_score_level_monotone (s1 s2 : Q) :
  (s1 <= s2)%Q ->
  (index_of (get_score_level s1) score_bands <= index_of (get_score_level s2) score_bands)%nat.
Proof.
  intros Hle. unfold get_score_level.
  qltb_cases; vm_compute; first [lia | exfalso; lra].
Qed.

Lemma get_score_level_monotone_witness :
  (1 <= 5 # 2)%Q /\
  (index_of (get_score_level 1) score_bands
   <= index_of (get_score_level (5 # 2)) score_bands)%nat.
Proof.
  assert (H : (1 <= 5 # 2)%Q) by (vm_compute; discriminate).
  split; [exact H | exact (get_score_level_monotone 1 (5 # 2) H)].
Defined.

(* --------------------------------------------------------------------- *)
(* The question catalog and the detail table                             *)
(* --------------------------------------------------------------------- *)

Lemma QUESTIONS_lookup_None (q : Z) : q ∉ question_ids -> QUESTIONS !! q = None.
Proof.
  intros Hq. unfold QUESTIONS. apply not_elem_of_list_to_map_1. exact Hq.
Qed.

Lemma SCALE_OPTIONS_lookup_None (r : Z) : ~ (0 <= r <= 6) -> SCALE_OPTIONS !! r = None.
Proof.
  intros Hr. unfold SCALE_OPTIONS. apply not_elem_of_list_to_map_1. cbn.
  intros Hin. apply Hr.
  repeat (apply elem_of_cons in Hin as [-> | Hin]; [lia |]).
  apply elem_of_nil in Hin. contradiction.
Qed.

Lemma QUESTIONS_lookup_Some (q : Z) (qd : question) :
  QUESTIONS !! q = Some qd -> q ∈ question_ids.
Proof.
  intros Hq. destruct (decide (q ∈ question_ids)) as [H | H]; [exact H |].
  rewrite QUESTIONS_lookup_None in Hq by exact H. discriminate.
Qed.

Lemma QUESTIONS_dom : dom QUESTIONS = list_to_set question_ids.
Proof. vm_compute. reflexivity. Qed.

(** The subscale tag of each question in QUESTIONS agrees with the item
    lists calculate_scores averages, and QUESTIONS has exactly the ids 1-9. *)
Theorem questions_subscales_match_items :
  dom QUESTIONS = list_to_set question_ids /\
  (forall q, (exists qd, QUESTIONS !! q = Some qd /\ q_subscale qd = subscale_vigor)
             <-> q ∈ vigor_items) /\
  (forall q, (exists qd, QUESTIONS !! q = Some qd /\ q_subscale qd = subscale_dedication)
             <-> q ∈ dedication_items) /\
  (forall q, (exists qd, QUESTIONS !! q = Some qd /\ q_subscale qd = subscale_absorption)
             <-> q ∈ absorption_items).
Proof.
  split; [exact QUESTIONS_dom |].
  repeat split.
  all: first
    [ intros [qd [Hqd Hsub]];
      pose proof (QUESTIONS_lookup_Some q qd Hqd) as Hin; unfold question_ids in Hin;
      repeat (apply elem_of_cons in Hin as [-> | Hin];
              [vm_compute in Hqd; injection Hqd as <-; vm_compute in Hsub;
               first [discriminate | solve_mem] |]);
      apply elem_of_nil in Hin; contradiction
    | intros Hin; unfold vigor_items, dedication_items, absorption_items in Hin;
      repeat (apply elem_of_cons in Hin as [-> | Hin];
              [eexists; split; [vm_compute; reflexivity | reflexivity] |]);
      apply elem_of_nil in Hin; contradiction ].
Qed.

Lemma scale_option_label (r : Z) :
  0 <= r <= 6 ->
  exists label, SCALE_OPTIONS !! r = Some (pretty r +:+ " - " +:+ label)%string /\
    py_split " - " (pretty r +:+ " - " +:+ label)%string !! 1%nat = Some label.
Proof.
  intros Hr.
  assert (r = 0 \/ r = 1 \/ r = 2 \/ r = 3 \/ r = 4 \/ r = 5 \/ r = 6)
    as [-> | [-> | [-> | [-> | [-> | [-> | ->]]]]]] by lia;
    [exists "全くない"%string | exists "1年に数回以下"%string | exists "1ヶ月に1回以下"%string
    | exists "1ヶ月に数回"%string | exists "1週間に1回"%string | exists "1週間に数回"%string
    | exists "毎日"%string];
    split; vm_compute; reflexivity.
Qed.

Lemma detail_row_of_ok (q r : Z) :
  q ∈ question_ids -> 0 <= r <= 6 ->
  exists qd label, QUESTIONS !! q = Some qd /\
    SCALE_OPTIONS !! r = Some (pretty r +:+ " - " +:+ label)%string /\
    detail_row_of q r = inl (mk_detail_row (q_column q) (q_text qd) (q_subscale qd) r label).
Proof.
  intros Hq Hr.
  assert (Hs : is_Some (QUESTIONS !! q)).
  { apply elem_of_dom. rewrite QUESTIONS_dom. apply elem_of_list_to_set, Hq. }
  destruct Hs as [qd Hqd].
  destruct (scale_option_label r Hr) as [label [Hopt Hsplit]].
  exists qd, label. split; [exact Hqd | split; [exact Hopt |]].
  unfold detail_row_of. rewrite Hqd, Hopt, Hsplit. reflexivity.
Qed.

Lemma detail_row_of_bad_value (q r : Z) :
  q ∈ question_ids -> ~ (0 <= r <= 6) -> detail_row_of q r = inr (DKeyError r).
Proof.
  intros Hq Hr.
  assert (Hs : is_Some (QUESTIONS !! q)).
  { apply elem_of_dom. rewrite QUESTIONS_dom. apply elem_of_list_to_set, Hq. }
  destruct Hs as [qd Hqd].
  unfold detail_row_of. rewrite Hqd, SCALE_OPTIONS_lookup_None by exact Hr. reflexivity.
Qed.

Lemma detail_rows_ok (l : list (Z * Z)) :
  Forall (fun kv => kv.1 ∈ question_ids /\ 0 <= kv.2 <= 6) l ->
  exists rows, detail_rows l = inl rows /\
    Forall2 (fun kv row => detail_row_of kv.1 kv.2 = inl row) l rows.
Proof.
  induction l as [|[q r] l IH]; intros Hall; simpl.
  - exists []. split; [reflexivity | constructor].
  - apply Forall_cons in Hall as [[Hq Hr] Hrest]. simpl in Hq, Hr.
    destruct (detail_row_of_ok q r Hq Hr) as (qd & label & _ & _ & Heq).
    destruct (IH Hrest) as (rows & Hl & Hrows).
    rewrite Heq, Hl. eexists. split; [reflexivity | constructor; [exact Heq | exact Hrows]].
Qed.

Lemma detail_rows_bad (l : list (Z * Z)) :
  Forall (fun kv => kv.1 ∈ question_ids) l ->
  (exists kv, kv ∈ l /\ ~ (0 <= kv.2 <= 6)) ->
  exists k, detail_rows l = inr (DKeyError k) /\
    (exists q, (q, k) ∈ l) /\ ~ (0 <= k <= 6).
Proof.
  induction l as [|[q r] l IH]; intros Hall Hbad; simpl.
  - destruct Hbad as (kv & Hin & _). apply elem_of_nil in Hin. contradiction.
  - apply Forall_cons in Hall as [Hq Hrest]. simpl in Hq.
    destruct (decide (0 <= r <= 6)) as [Hr | Hr].
    + destruct (detail_row_of_ok q r Hq Hr) as (qd & label & _ & _ & ->).
      destruct IH as (k & Hk & [q' Hq'] & Hkr); [exact Hrest | |].
      { destruct Hbad as (kv & Hin & Hkv). apply elem_of_cons in Hin as [-> | Hin];
          [contradiction | eauto]. }
      rewrite Hk. exists k. split; [reflexivity |].
      split; [exists q'; apply elem_of_cons; right; exact Hq' | exact Hkr].
    + rewrite detail_row_of_bad_value by assumption.
      exists r. split; [reflexivity | split; [exists q; apply elem_of_cons; left; reflexivity | exact Hr]].
Qed.

(** When every entry has an id 1-9 and an answer 0-6, the detail table is
    built without error, with one row per entry; the row of (q, r) shows
    "Q<q>", the question's text and subscale from QUESTIONS, the answer r,
    and the option label: SCALE_OPTIONS[r] is "<r> - <label>". *)
Theorem detail_data_rows (m : gmap Z Z) :
  (forall q r, m !! q = Some r -> q ∈ question_ids /\ 0 <= r <= 6) ->
  exists rows, detail_data m = inl rows /\ length rows = size m /\
    forall q r, m !! q = Some r -> exists row qd label, row ∈ rows /\
      QUESTIONS !! q = Some qd /\
      SCALE_OPTIONS !! r = Some (pretty r +:+ " - " +:+ label)%string /\
      row = mk_detail_row (q_column q) (q_text qd) (q_subscale qd) r label.
Proof.
  intros Hm.
  assert (Hall : Forall (fun kv => kv.1 ∈ question_ids /\ 0 <= kv.2 <= 6) (map_to_list m)).
  { apply Forall_forall. intros [q r] Hin. apply elem_of_map_to_list in Hin. apply Hm, Hin. }
  destruct (detail_rows_ok _ Hall) as (rows & Hrows & H2).
  exists rows. split; [exact Hrows | split].
  - rewrite <- (Forall2_length _ _ _ H2). apply length_map_to_list.
  - intros q r Hqr.
    apply elem_of_map_to_list in Hqr as Hin.
    apply list_elem_of_lookup_1 in Hin as [i Hi].
    destruct (Forall2_lookup_l _ _ _ _ _ H2 Hi) as (row & Hrow & Hrow_of).
    destruct (Hm q r Hqr) as [Hq Hr].
    destruct (detail_row_of_ok q r Hq Hr) as (qd & label & Hqd & Hopt & Heq).
    simpl in Hrow_of. rewrite Heq in Hrow_of. injection Hrow_of as <-.
    exists (mk_detail_row (q_column q) (q_text qd) (q_subscale qd) r label), qd, label.
    split; [apply (list_elem_of_lookup_2 _ i); exact Hrow |].
    split; [exact Hqd | split; [exact Hopt | reflexivity]].
Qed.

Lemma exact_ids_entries (m : gmap Z Z) :
  has_exact_ids m -> values_in_range m ->
  forall q r, m !! q = Some r -> q ∈ question_ids /\ 0 <= r <= 6.
Proof.
  intros Hd Hr q r Hq. split; [| exact (Hr q r Hq)].
  apply (elem_of_list_to_set (C := gset Z)). unfold has_exact_ids in Hd. rewrite <- Hd.
  apply elem_of_dom. eexists; exact Hq.
Qed.

Lemma detail_data_rows_witness :
  (forall q r, mixed_example !! q = Some r -> q ∈ question_ids /\ 0 <= r <= 6) /\
  exists rows, detail_data mixed_example = inl rows /\ length rows = size mixed_example /\
    forall q r, mixed_example !! q = Some r -> exists row qd label, row ∈ rows /\
      QUESTIONS !! q = Some qd /\
      SCALE_OPTIONS !! r = Some (pretty r +:+ " - " +:+ label)%string /\
      row = mk_detail_row (q_column q) (q_text qd) (q_subscale qd) r label.
Proof.
  pose proof (exact_ids_entries mixed_example mixed_example_exact mixed_example_in_range) as H.
  split; [exact H | exact (detail_data_rows mixed_example H)].
Defined.

(* --------------------------------------------------------------------- *)
(* The result tab and the session                                        *)
(* --------------------------------------------------------------------- *)

Lemma results_gate_true (m : gmap Z Z) (q r : Z) :
  m !! q = Some r -> results_gate true m = true.
Proof.
  intros Hq. unfold results_gate. simpl. apply negb_true_iff, bool_decide_eq_false.
  intros ->. rewrite lookup_empty in Hq. discriminate.
Qed.

(** A submitted response set with all ids 1-9 but an answer outside 0-6
    passes calculate_scores, and the result tab then stops with KeyError
    in the detail table (`SCALE_OPTIONS[response]`), on an out-of-range
    answer of the set. *)
Theorem results_tab_out_of_range_crash (m : gmap Z Z) (q r : Z) :
  has_exact_ids m -> m !! q = Some r -> ~ (0 <= r <= 6) ->
  exists k, results_tab (mk_session true m) = ResultsDetailError (DKeyError k) /\
    (exists q', m !! q' = Some k) /\ ~ (0 <= k <= 6).
Proof.
  intros Hd Hq Hr. unfold results_tab. cbn [ss_submitted ss_responses].
  rewrite (results_gate_true m q r Hq).
  rewrite (calculate_scores_present m (exact_ids_present m Hd)).
  unfold detail_data.
  destruct (detail_rows_bad (map_to_list m)) as (k & Hk & [q' Hq'] & Hkr).
  - apply Forall_forall. intros [q1 r1] Hin. apply elem_of_map_to_list in Hin.
    simpl. apply (elem_of_list_to_set (C := gset Z)). unfold has_exact_ids in Hd. rewrite <- Hd.
    apply elem_of_dom. eexists; exact Hin.
  - exists (q, r). split; [apply elem_of_map_to_list, Hq | exact Hr].
  - rewrite Hk. exists k. split; [reflexivity |].
    split; [exists q'; apply elem_of_map_to_list, Hq' | exact Hkr].
Qed.

Lemma results_tab_out_of_range_crash_witness :
  has_exact_ids out_of_range_example /\ out_of_range_example !! 1 = Some 7 /\
  ~ (0 <= 7 <= 6) /\
  exists k, results_tab (mk_session true out_of_range_example)
              = ResultsDetailError (DKeyError k) /\
    (exists q', out_of_range_example !! q' = Some k) /\ ~ (0 <= k <= 6).
Proof.
  assert (Hd : has_exact_ids out_of_range_example)
    by (unfold has_exact_ids; vm_compute; reflexivity).
  assert (Hq : out_of_range_example !! 1 = Some 7) by (vm_compute; reflexivity).
  assert (Hr : ~ (0 <= 7 <= 6)) by lia.
  split; [exact Hd | split; [exact Hq | split; [exact Hr |]]].
  exact (results_tab_out_of_range_crash out_of_range_example 1 7 Hd Hq Hr).
Defined.

Lemma collect_responses_exact (slider : Z -> Z) :
  has_exact_ids (collect_responses slider).
Proof.
  unfold has_exact_ids. apply set_eq. intros q.
  rewrite elem_of_dom, elem_of_list_to_set, collect_responses_lookup.
  destruct (decide (q ∈ question_ids)) as [H|H].
  - split; intros _; [exact H | eexists; reflexivity].
  - split; intros Hq; [destruct Hq as [? Hq]; discriminate | contradiction].
Qed.

Lemma collect_responses_in_range (slider : Z -> Z) :
  (forall q, q ∈ question_ids -> slider q ∈ scale_option_keys) ->
  values_in_range (collect_responses slider).
Proof.
  intros Hs q v Hq. rewrite collect_responses_lookup in Hq.
  destruct (decide (q ∈ question_ids)) as [H|]; [| discriminate].
  injection Hq as <-. apply scale_option_bounds, Hs, H.
Qed.

Lemma present_scores_bounds (m : gmap Z Z) :
  (forall i, i ∈ question_ids -> is_Some (m !! i)) -> values_in_range m ->
  exists sc, calculate_scores m = Ok sc /\
    (0 <= vigor_score sc <= 6)%Q /\ (0 <= dedication_score sc <= 6)%Q /\
    (0 <= absorption_score sc <= 6)%Q /\ (0 <= total_score sc <= 6)%Q.
Proof.
  intros Hall Hr. eexists. split; [exact (calculate_scores_present m Hall) |].
  cbn [vigor_score dedication_score absorption_score total_score].
  assert (Hitems : forall items,
    (forall j, j ∈ items -> j ∈ question_ids) -> length items = 3%nat ->
    (0 <= inject_Z (foldr (fun i acc => (m !!! i + acc)%Z) 0%Z items) / inject_Z 3 <= 6)%Q).
  { intros items Hsub Hlen. apply qdiv_bounds; [lia |].
    pose proof (sum_items_bounds m items Hr (present_items m items Hall Hsub)) as Hb.
    rewrite Hlen in Hb. exact Hb. }
  split; [| split; [| split]];
    try (apply Hitems; [intros j Hj; apply item_lists_in_questions; auto | reflexivity]).
  apply qdiv_bounds; [| apply sum_values_bounds, Hr].
  destruct (size m) eqn:Hs; [| lia].
  apply map_size_empty_iff in Hs. subst m.
  destruct (Hall 1 ltac:(solve_mem)) as [v Hv]. rewrite lookup_empty in Hv. discriminate.
Qed.

Lemma get_interpretation_nonempty (sc : scores) : get_interpretation sc <> EmptyString.
Proof.
  unfold get_interpretation, get_score_level. qltb_cases; vm_compute; discriminate.
Qed.

(** Whatever the session held before, submitting the form (each slider
    on one of the options 0-6) makes the result tab show the results:
    calculate_scores succeeds, all four scores lie in [0,6], the
    interpretation text is not empty and the detail table has nine rows. *)
Theorem submit_then_results_shown (slider : Z -> Z) (s : session) :
  (forall q, q ∈ question_ids -> slider q ∈ scale_option_keys) ->
  exists sc rows,
    results_tab (submit_answers slider s) =
      ResultsShown sc (fst (get_score_level (total_score sc))) (get_interpretation sc) rows /\
    calculate_scores (collect_responses slider) = Ok sc /\
    (0 <= vigor_score sc <= 6)%Q /\ (0 <= dedication_score sc <= 6)%Q /\
    (0 <= absorption_score sc <= 6)%Q /\ (0 <= total_score sc <= 6)%Q /\
    get_interpretation sc <> EmptyString /\ length rows = 9%nat.
Proof.
  intros Hs.
  set (m := collect_responses slider).
  pose proof (collect_responses_exact slider) as Hd.
  pose proof (collect_responses_in_range slider Hs) as Hr.
  fold m in Hd, Hr.
  destruct (present_scores_bounds m (exact_ids_present m Hd) Hr)
    as (sc & Hsc & Hb1 & Hb2 & Hb3 & Hb4).
  destruct (detail_rows_ok (map_to_list m)) as (rows & Hrows & H2).
  { apply Forall_forall. intros [q r] Hin. apply elem_of_map_to_list in Hin.
    exact (exact_ids_entries m Hd Hr q r Hin). }
  exists sc, rows.
  assert (H1 : is_Some (m !! 1)) by (apply (exact_ids_present m Hd); solve_mem).
  destruct H1 as [v1 H1].
  unfold results_tab, submit_answers. cbn [ss_submitted ss_responses]. fold m.
  rewrite (results_gate_true m 1 v1 H1), Hsc. unfold detail_data. rewrite Hrows.
  split; [reflexivity |].
  split; [reflexivity |].
  do 4 (split; [assumption |]).
  split; [apply get_interpretation_nonempty |].
  rewrite <- (Forall2_length _ _ _ H2), length_map_to_list.
  apply (exact_ids_sum_size m Hd).
Qed.

Lemma submit_then_results_shown_witness :
  (forall q, q ∈ question_ids -> all_fours q ∈ scale_option_keys) /\
  exists sc rows,
    results_tab (submit_answers all_fours initial_session) =
      ResultsShown sc (fst (get_score_level (total_score sc))) (get_interpretation sc) rows /\
    calculate_scores (collect_responses all_fours) = Ok sc /\
    (0 <= vigor_score sc <= 6)%Q /\ (0 <= dedication_score sc <= 6)%Q /\
    (0 <= absorption_score sc <= 6)%Q /\ (0 <= total_score sc <= 6)%Q /\
    get_interpretation sc <> EmptyString /\ length rows = 9%nat.
Proof.
  assert (Hs : forall q, q ∈ question_ids -> all_fours q ∈ scale_option_keys)
    by (intros q _; solve_mem).
  split; [exact Hs | exact (submit_then_results_shown all_fours initial_session Hs)].
Defined.

(** After a submit, every slider of the form is created at the submitted
    answer; in a fresh session or after a reset every slider starts at 3
    and the result tab shows only the info message. *)
Theorem session_slider_defaults (slider : Z -> Z) (s : session) :
  (forall q, q ∈ question_ids -> slider_default (submit_answers slider s) q = slider q) /\
  (forall q, slider_default (reset_session s) q = 3) /\
  (forall q, slider_default initial_session q = 3) /\
  results_tab (reset_session s) = ResultsInfo /\
  results_tab initial_session = ResultsInfo.
Proof.
  split; [| split; [| split; [| split]]].
  - intros q Hq. unfold slider_default, submit_answers. cbn [ss_responses].
    rewrite collect_responses_lookup. destruct (decide (q ∈ question_ids)); [reflexivity | contradiction].
  - intros q. unfold slider_default, reset_session. cbn [ss_responses].
    rewrite lookup_empty. reflexivity.
  - intros q. unfold slider_default, initial_session. cbn [ss_responses].
    rewrite lookup_empty. reflexivity.
  - reflexivity.
  - reflexivity.
Qed.

(* --------------------------------------------------------------------- *)
(* The export record                                                     *)
(* --------------------------------------------------------------------- *)

Lemma dict_set_new (d : list (string * cell)) (k : string) (v : cell) :
  k ∉ d.*1 -> dict_set d k v = d ++ [(k, v)].
Proof.
  induction d as [|[k' v'] d IH]; intros Hk; simpl; [reflexivity |].
  rewrite fmap_cons, not_elem_of_cons in Hk. destruct Hk as [Hne Hk].
  apply String.eqb_neq in Hne. simpl in Hne. rewrite Hne, IH by exact Hk. reflexivity.
Qed.

Lemma q_column_inj (a b : Z) : q_column a = q_column b -> a = b.
Proof. unfold q_column. simpl. intros H. injection H as H. apply (inj pretty), H. Qed.

Lemma q_column_not_fixed (timestamp : string) (sc : scores) (q : Z) :
  q_column q ∉ (export_fixed timestamp sc).*1.
Proof.
  unfold q_column, export_fixed. cbn. intros Hin.
  repeat (apply elem_of_cons in Hin as [Hin | Hin]; [discriminate Hin |]).
  apply elem_of_nil in Hin. contradiction.
Qed.

Lemma export_fold_app (l : list (Z * Z)) (d : list (string * cell)) :
  NoDup l.*1 -> (forall kv, kv ∈ l -> q_column kv.1 ∉ d.*1) ->
  foldl (fun d kv => dict_set d (q_column kv.1) (CInt kv.2)) d l =
  d ++ ((fun kv => (q_column kv.1, CInt kv.2)) <$> l).
Proof.
  revert d. induction l as [|[q r] l IH]; intros d Hnd Hout; simpl.
  - rewrite app_nil_r. reflexivity.
  - rewrite fmap_cons in Hnd. apply NoDup_cons in Hnd as [Hq Hnd].
    rewrite dict_set_new by (apply (Hout (q, r)), elem_of_cons; left; reflexivity).
    rewrite IH; [rewrite <- app_assoc; reflexivity | exact Hnd |].
    intros [q' r'] Hin. rewrite fmap_app, elem_of_app. intros [Hd | Hnew].
    + apply (Hout (q', r')); [apply elem_of_cons; right; exact Hin | exact Hd].
    + simpl in Hnew. apply elem_of_cons in Hnew as [Heq | Hnil];
        [| apply elem_of_nil in Hnil; contradiction].
      apply q_column_inj in Heq. simpl in Heq. subst q'.
      apply Hq. apply (list_elem_of_fmap_2 fst _ (q, r')). exact Hin.
Qed.

(** The export record never loses an answer: it is the five fixed
    columns (timestamp, overall, Vigor, Dedication, Absorption) followed by
    one column "Q<q>" holding the answer r for each entry (q, r); its
    column names are pairwise distinct, so there are 5 + len(responses)
    of them. *)
Theorem export_data_columns (timestamp : string) (sc : scores) (m : gmap Z Z) :
  export_data timestamp sc m =
    export_fixed timestamp sc ++ ((fun kv => (q_column kv.1, CInt kv.2)) <$> map_to_list m) /\
  NoDup (export_data timestamp sc m).*1 /\
  length (export_data timestamp sc m) = (5 + size m)%nat.
Proof.
  assert (Heq : export_data timestamp sc m =
    export_fixed timestamp sc ++ ((fun kv => (q_column kv.1, CInt kv.2)) <$> map_to_list m)).
  { unfold export_data. apply export_fold_app; [apply NoDup_fst_map_to_list |].
    intros kv _. apply q_column_not_fixed. }
  split; [exact Heq | rewrite Heq; split].
  - rewrite fmap_app, NoDup_app. split; [| split].
    + vm_compute. repeat constructor; vm_compute; intros H;
        repeat (apply elem_of_cons in H as [H | H]; [discriminate H |]);
        apply elem_of_nil in H; exact H.
    + intros x Hx Hin. rewrite <- list_fmap_compose in Hin.
      apply list_elem_of_fmap in Hin as [kv [-> _]].
      apply (q_column_not_fixed timestamp sc kv.1), Hx.
    + rewrite <- list_fmap_compose.
      change (fst ∘ (fun kv : Z * Z => (q_column kv.1, CInt kv.2))) with (q_column ∘ (@fst Z Z)).
      rewrite list_fmap_compose. apply NoDup_fmap_2_strong.
      * intros x y _ _. apply q_column_inj.
      * apply NoDup_fst_map_to_list.
  - rewrite length_app, length_fmap, length_map_to_list. reflexivity.
Qed.

(* --------------------------------------------------------------------- *)
(* The charts                                                            *)
(* --------------------------------------------------------------------- *)

(** For answers to 1-9 in 0-6, the radar polygon is closed (four points,
    the last repeating the first, one per category) and each of its
    points lies inside the radial axis range [0, 6]. *)
Theorem radar_chart_within_axis (m : gmap Z Z) :
  (forall i, i ∈ question_ids -> is_Some (m !! i)) -> values_in_range m ->
  exists sc, calculate_scores m = Ok sc /\
    length (radar_values sc) = length radar_categories /\
    radar_values sc !! 3%nat = radar_values sc !! 0%nat /\
    forall v, v ∈ radar_values sc -> (radar_axis_range.1 <= v <= radar_axis_range.2)%Q.
Proof.
  intros Hall Hr.
  destruct (present_scores_bounds m Hall Hr) as (sc & Hsc & H1 & H2 & H3 & _).
  exists sc. split; [exact Hsc | split; [reflexivity | split; [reflexivity |]]].
  intros v Hv. unfold radar_values, close_loop in Hv. simpl in Hv.
  repeat (apply elem_of_cons in Hv as [-> | Hv]; [assumption |]).
  apply elem_of_nil in Hv. contradiction.
Qed.

Lemma radar_chart_within_axis_witness :
  (forall i, i ∈ question_ids -> is_Some (mixed_example !! i)) /\
  values_in_range mixed_example /\
  exists sc, calculate_scores mixed_example = Ok sc /\
    length (radar_values sc) = length radar_categories /\
    radar_values sc !! 3%nat = radar_values sc !! 0%nat /\
    forall v, v ∈ radar_values sc -> (radar_axis_range.1 <= v <= radar_axis_range.2)%Q.
Proof.
  pose proof (exact_ids_present mixed_example mixed_example_exact) as Hall.
  split; [exact Hall | split; [exact mixed_example_in_range |]].
  exact (radar_chart_within_axis mixed_example Hall mixed_example_in_range).
Defined.

Lemma band_colour_member (s : Q) : snd (get_score_level s) ∈ score_bands.*2.
Proof.
  unfold get_score_level. qltb_cases; apply (bool_decide_unpack _); vm_compute; reflexivity.
Qed.

(** For answers to 1-9 in 0-6, every bar of the bar chart (the four
    scores) lies inside the y-axis range [0, 6], and each bar gets one
    colour, one of the six band colours. *)
Theorem bar_chart_within_axis (m : gmap Z Z) :
  (forall i, i ∈ question_ids -> is_Some (m !! i)) -> values_in_range m ->
  exists sc, calculate_scores m = Ok sc /\
    (forall kv, kv ∈ bar_data sc -> (bar_axis_range.1 <= kv.2 <= bar_axis_range.2)%Q) /\
    length (bar_colors sc) = length (bar_data sc) /\
    forall c, c ∈ bar_colors sc -> c ∈ score_bands.*2.
Proof.
  intros Hall Hr.
  destruct (present_scores_bounds m Hall Hr) as (sc & Hsc & H1 & H2 & H3 & H4).
  exists sc. split; [exact Hsc | split; [| split; [reflexivity |]]].
  - intros kv Hkv. unfold bar_data, scores_items in Hkv.
    repeat (apply elem_of_cons in Hkv as [-> | Hkv]; [assumption |]).
    apply elem_of_nil in Hkv. contradiction.
  - intros c Hc. unfold bar_colors, scores_items in Hc. simpl in Hc.
    repeat (apply elem_of_cons in Hc as [-> | Hc]; [apply band_colour_member |]).
    apply elem_of_nil in Hc. contradiction.
Qed.

Lemma bar_chart_within_axis_witness :
  (forall i, i ∈ question_ids -> is_Some (mixed_example !! i)) /\
  values_in_range mixed_example /\
  exists sc, calculate_scores mixed_example = Ok sc /\
    (forall kv, kv ∈ bar_data sc -> (bar_axis_range.1 <= kv.2 <= bar_axis_range.2)%Q) /\
    length (bar_colors sc) = length (bar_data sc) /\
    forall c, c ∈ bar_colors sc -> c ∈ score_bands.*2.
Proof.
  pose proof (exact_ids_present mixed_example mixed_example_exact) as Hall.
  split; [exact Hall | split; [exact mixed_example_in_range |]].
  exact (bar_chart_within_axis mixed_example Hall mixed_example_in_range).
Defined.
